(** * ETL-Automation: the pipeline control panel and the run-state contract

    Shallow embedding of [frontend/src/components/PipelineControl.jsx]:
    the three [useState] cells of the component, its handlers
    ([checkStatus], [handleStart], [handleStop], [addLog]), the
    configuration inputs and the polling effect.  The backend pieces the
    component talks to (the pipeline state machine and the deduplicator)
    are not part of the front-end sources; they are modelled from the
    specification and marked as such. *)

From Stdlib Require Import ZArith Ascii String List Lia Bool.
From stdpp Require Import base list gmap strings pretty.

Local Open Scope string_scope.
Local Open Scope Z_scope.
Local Open Scope list_scope.

(** ** JavaScript values used by the component *)

Module JS.

(** A JavaScript number as the component can hold one in [config.pages]:
    the literal [2] or the result of [parseInt], which is either [NaN] or
    an integer.  Integers are kept exact (the rounding to a double that
    JavaScript applies beyond 2^53 is not represented). *)
Inductive Number := NaN | Int (z : Z).

Definition isNaN (n : Number) : bool :=
  match n with NaN => true | Int _ => false end.

(** [StrWhiteSpaceChar] restricted to the one-byte code points: TAB, LF,
    VT, FF, CR and SPACE. *)
Definition isWhiteSpace (a : ascii) : bool :=
  let n := nat_of_ascii a in
  ((9 <=? n) && (n <=? 13))%nat || (n =? 32)%nat.

Fixpoint trimStart (s : list ascii) : list ascii :=
  match s with
  | a :: s' => if isWhiteSpace a then trimStart s' else s
  | [] => []
  end.

(** Value of a character as a digit in some radix up to 36. *)
Definition digitValue (a : ascii) : option Z :=
  let n := Z.of_nat (nat_of_ascii a) in
  if (48 <=? n) && (n <=? 57) then Some (n - 48)
  else if (97 <=? n) && (n <=? 122) then Some (n - 87)
  else if (65 <=? n) && (n <=? 90) then Some (n - 55)
  else None.

Definition radixDigit (R : Z) (a : ascii) : option Z :=
  match digitValue a with
  | Some d => if d <? R then Some d else None
  | None => None
  end.

(** The longest prefix of radix-[R] digits. *)
Fixpoint leadingDigits (R : Z) (s : list ascii) : list Z :=
  match s with
  | a :: s' =>
      match radixDigit R a with
      | Some d => d :: leadingDigits R s'
      | None => []
      end
  | [] => []
  end.

Definition mathInt (R : Z) (ds : list Z) : Z :=
  fold_left (fun acc d => acc * R + d) ds 0.

(** Step 2-4 of parseInt: a leading [-] gives sign -1, and a leading
    [+] or [-] is removed. *)
Definition stripSign (s : list ascii) : Z * list ascii :=
  match s with
  | "-"%char :: r => (-1, r)
  | "+"%char :: r => (1, r)
  | _ => (1, s)
  end.

(** Step 8-10 with the radix undefined: [0x] or [0X] selects radix 16
    and is removed, anything else is read in radix 10. *)
Definition stripPrefix (s : list ascii) : Z * list ascii :=
  match s with
  | "0"%char :: "x"%char :: r => (16, r)
  | "0"%char :: "X"%char :: r => (16, r)
  | _ => (10, s)
  end.

(** [parseInt(string)] with the radix argument left out, following
    ECMA-262 (parseInt): trim, sign, optional [0x] prefix, digits. *)
Definition parseInt (input : string) : Number :=
  let '(sign, S1) := stripSign (trimStart (list_ascii_of_string input)) in
  let '(R, S2) := stripPrefix S1 in
  match leadingDigits R S2 with
  | [] => NaN
  | ds => Int (sign * mathInt R ds)
  end.

Definition isDecimalDigit (a : ascii) : bool :=
  let n := nat_of_ascii a in ((48 <=? n) && (n <=? 57))%nat.

(** Whether a raw input starts, after white space and an optional sign,
    with a decimal digit. *)
Definition startsWithDigit (input : string) : bool :=
  match snd (stripSign (trimStart (list_ascii_of_string input))) with
  | a :: _ => isDecimalDigit a
  | [] => false
  end.

(** [arr.slice(-k)]: the last [k] elements, the whole array when it is
    shorter. *)
Definition slice_last {A} (k : nat) (arr : list A) : list A :=
  drop (length arr - k) arr.

(** Truthiness of a string: every string but the empty one. *)
Definition truthy (s : string) : bool :=
  match s with EmptyString => false | String _ _ => true end.

End JS.

(** ** Component state *)

Inductive LogType := info | success | warning.

Record LogEntry := mkLog {
  message : string;
  type : LogType;
  timestamp : string
}.

Record Config := mkConfig {
  asins : string;
  pages : JS.Number;
  headless : bool;
  mining : bool
}.

(** The three [useState] cells. *)
Record Component := mkComponent {
  isRunning : bool;
  logs : list LogEntry;
  config : Config
}.

(** Initial values given to [useState]. *)
Definition initialConfig : Config :=
  {| asins := "B0CX59H5W7,B0FHB5V36G";
     pages := JS.Int 2;
     headless := true;
     mining := true |}.

Definition initial : Component :=
  {| isRunning := false; logs := []; config := initialConfig |}.

Definition setIsRunning (b : bool) (c : Component) : Component :=
  {| isRunning := b; logs := logs c; config := config c |}.

Definition setLogs (f : list LogEntry -> list LogEntry) (c : Component) : Component :=
  {| isRunning := isRunning c; logs := f (logs c); config := config c |}.

Definition setConfig (cfg : Config) (c : Component) : Component :=
  {| isRunning := isRunning c; logs := logs c; config := cfg |}.

(** The updater passed to [setLogs] by [addLog]:
    [prev => [...prev, entry].slice(-50)]. *)
Definition LOG_CAPACITY : nat := 50.

Definition appendLog (e : LogEntry) (prev : list LogEntry) : list LogEntry :=
  JS.slice_last LOG_CAPACITY (prev ++ [e]).

(** [addLog(message, type)]; [now] is what
    [new Date().toLocaleTimeString()] returns at the call. *)
Definition addLog (msg : string) (ty : LogType) (now : string) (c : Component) : Component :=
  setLogs (appendLog {| message := msg; type := ty; timestamp := now |}) c.

(** ** The API service as seen from the component

    [api] is imported from [../services/api]; the component only
    observes whether a request resolves or rejects and, for
    [getStatus], the object it resolves to. *)

Inductive ApiResult := Resolved | Rejected.

(** What [api.getStatus()] resolves to when it is truthy. *)
Record StatusResponse := mkStatus {
  status : string;
  status_message : string
}.

(** The requests the component sends. *)
Inductive ApiCall :=
  | GetStatus
  | StartPipeline (body : Config)
  | StopPipeline.

(** ** Handlers *)

(** [checkStatus]: [resp] is the awaited value of [api.getStatus()]
    ([None] for a falsy one). *)
Definition checkStatus (resp : option StatusResponse) (now : string)
    (c : Component) : Component :=
  match resp with
  | Some st =>
      let c1 := setIsRunning (String.eqb (status st) "running") c in
      if JS.truthy (status_message st)
         && negb (String.eqb (status_message st) "Ready")
      then addLog (status_message st)
             (if String.eqb (status st) "running" then info else success)
             now c1
      else c1
  | None => c
  end.

(** [handleStart] with nothing handled while the request is pending (the
    two halves are [handleStartBegin] and [handleStartSettle] below): [r]
    is the outcome of [await api.startPipeline(config)]; [t1] and [t2] are
    the clock readings of the two [addLog] calls. *)
Definition handleStart (r : ApiResult) (t1 t2 : string) (c : Component) : Component :=
  let c1 := addLog "Initiating pipeline start..." info t1 c in
  match r with
  | Resolved =>
      addLog "Pipeline started successfully" success t2 (setIsRunning true c1)
  | Rejected =>
      addLog "Failed to start pipeline" warning t2 c1
  end.

(** [handleStop]: [r] is the outcome of [await api.stopPipeline()]. *)
Definition handleStop (r : ApiResult) (t : string) (c : Component) : Component :=
  match r with
  | Resolved =>
      addLog "Pipeline stop requested" warning t (setIsRunning false c)
  | Rejected =>
      addLog "Failed to stop pipeline" warning t c
  end.

(** [onChange] of the ASIN text area. *)
Definition onAsinsChange (value : string) (c : Component) : Component :=
  setConfig {| asins := value;
               pages := pages (config c);
               headless := headless (config c);
               mining := mining (config c) |} c.

(** [onChange] of the "Pages per Product" input. *)
Definition onPagesChange (value : string) (c : Component) : Component :=
  setConfig {| asins := asins (config c);
               pages := JS.parseInt value;
               headless := headless (config c);
               mining := mining (config c) |} c.

(** [onClick] of the "Headless Mode" toggle. *)
Definition onHeadlessClick (c : Component) : Component :=
  setConfig {| asins := asins (config c);
               pages := pages (config c);
               headless := negb (headless (config c));
               mining := mining (config c) |} c.

(** [onClick] of the "Review Mining" toggle. *)
Definition onMiningClick (c : Component) : Component :=
  setConfig {| asins := asins (config c);
               pages := pages (config c);
               headless := headless (config c);
               mining := negb (mining (config c)) |} c.

(** ** Rendering: which of the two main buttons exists *)

Inductive MainButton := StartButton | StopButton.

Definition mainButton (c : Component) : MainButton :=
  if negb (isRunning c) then StartButton else StopButton.

(** The spinner class of the log header and the trailing cursor line. *)
Definition spinnerShown (c : Component) : bool := isRunning c.

(** ** Events and the requests they send *)

Inductive Event :=
  | AsinsInput (value : string)
  | PagesInput (value : string)
  | HeadlessToggle
  | MiningToggle
  | MainClick (r : ApiResult) (t1 t2 : string)
  | Poll (resp : option StatusResponse) (now : string).

(** One event: the new component state and the requests sent while
    handling it.  A click on the main button runs the handler of the
    button that is rendered. *)
Definition step (c : Component) (e : Event) : Component * list ApiCall :=
  match e with
  | AsinsInput v => (onAsinsChange v c, [])
  | PagesInput v => (onPagesChange v c, [])
  | HeadlessToggle => (onHeadlessClick c, [])
  | MiningToggle => (onMiningClick c, [])
  | MainClick r t1 t2 =>
      match mainButton c with
      | StartButton => (handleStart r t1 t2 c, [StartPipeline (config c)])
      | StopButton => (handleStop r t2 c, [StopPipeline])
      end
  | Poll resp now => (checkStatus resp now c, [GetStatus])
  end.

Fixpoint run (c : Component) (evs : list Event) : Component * list ApiCall :=
  match evs with
  | [] => (c, [])
  | e :: evs' =>
      let '(c1, sent1) := step c e in
      let '(c2, sent2) := run c1 evs' in
      (c2, sent1 ++ sent2)
  end.

(** Whether an event is a click on the Review Mining toggle. *)
Definition touchesMining (e : Event) : bool :=
  match e with MiningToggle => true | _ => false end.

(** ** The polling effect

    [useEffect(() => { const interval = setInterval(checkStatus, 2000);
    return () => clearInterval(interval); }, [])]: one interval is
    registered when the component mounts and cleared when it unmounts.
    Times are in milliseconds. *)

Definition POLL_DELAY : Z := 2000.

Record Interval := mkInterval {
  registered_at : Z;
  delay : Z
}.

Definition onMount (now : Z) : option Interval :=
  Some {| registered_at := now; delay := POLL_DELAY |}.

Definition onUnmount (_ : option Interval) : option Interval := None.

(** An interval calls back at every whole multiple of its delay after
    registration. *)
Definition fires (i : option Interval) (now : Z) : bool :=
  match i with
  | Some iv =>
      (registered_at iv <? now)
      && ((now - registered_at iv) mod delay iv =? 0)
  | None => false
  end.

(** ** The pipeline state machine (backend) *)

Module Pipeline.

(** Modelled from the spec: the PipelineStateMachine and the PipelineRun
    singleton live in the Python backend ([api_controller.py]), which is
    not among the front-end sources.  States and transitions follow
    section 4.9: Idle -> Running -> {Stopping -> Idle, Completed -> Idle,
    Error -> Idle}. *)
Inductive State := Idle | Running | Stopping | Error | Completed.

(** Modelled from the spec: the part of PipelineRun that the control
    surface exposes, {state, current_message}. *)
Record PipelineRun := mkRun {
  state : State;
  current_message : string
}.

(** Modelled from the spec: the argument of [start],
    {targets, page_limit, headless, mining_enabled}. *)
Record RunConfig := mkRunConfig {
  targets : list string;
  page_limit : Z;
  run_headless : bool;
  mining_enabled : bool
}.

Inductive StartError := AlreadyRunning.

(** Modelled from the spec: "start(config) fails with AlreadyRunning if
    not Idle"; otherwise the run begins. *)
Definition start (cfg : RunConfig) (msg : string) (p : PipelineRun)
    : StartError + PipelineRun :=
  match state p with
  | Idle => inr {| state := Running; current_message := msg |}
  | _ => inl AlreadyRunning
  end.

(** Modelled from the spec: "stop() is a no-op unless Running (moves to
    Stopping ...)". *)
Definition stop (msg : string) (p : PipelineRun) : PipelineRun :=
  match state p with
  | Running => {| state := Stopping; current_message := msg |}
  | _ => p
  end.

(** Modelled from the spec: "status() returns {state, message} at any
    time". *)
Record Status := mkStatus { st_state : State; st_message : string }.

Definition status (p : PipelineRun) : Status :=
  {| st_state := state p; st_message := current_message p |}.

(** Modelled from the spec: what the scheduler does to the run state.
    A stop request is observed at the next attempt boundary, a run
    without one ends Completed or, on a fatal condition, Error, and both
    are retired to Idle. *)
Inductive SchedulerStep :=
  | AttemptBoundary
  | AllTargetsDone
  | FatalCondition
  | Retire.

Definition schedule (s : SchedulerStep) (msg : string) (p : PipelineRun)
    : PipelineRun :=
  match s, state p with
  | AttemptBoundary, Stopping => {| state := Idle; current_message := msg |}
  | AllTargetsDone, Running => {| state := Completed; current_message := msg |}
  | FatalCondition, Running => {| state := Error; current_message := msg |}
  | Retire, Completed => {| state := Idle; current_message := msg |}
  | Retire, Error => {| state := Idle; current_message := msg |}
  | _, _ => p
  end.

(** Everything that can act on the run state, with the message it
    records. *)
Inductive Action :=
  | DoStart (cfg : RunConfig) (msg : string)
  | DoStop (msg : string)
  | DoSchedule (s : SchedulerStep) (msg : string).

Definition act (p : PipelineRun) (a : Action) : PipelineRun :=
  match a with
  | DoStart cfg msg =>
      match start cfg msg p with inr p' => p' | inl _ => p end
  | DoStop msg => stop msg p
  | DoSchedule s msg => schedule s msg p
  end.

Definition exec (p : PipelineRun) (acts : list Action) : PipelineRun :=
  fold_left act acts p.

Definition isBoundary (a : Action) : bool :=
  match a with DoSchedule AttemptBoundary _ => true | _ => false end.

End Pipeline.

(** ** The deduplicator (backend) *)

Module Dedup.

(** Modelled from the spec: RawReview of section 3; the deduplicator is
    part of the Python ETL code, which is not among the front-end
    sources. *)
Record RawReview := mkReview {
  target_identifier : string;
  title : string;
  rating : Z;
  content : string;
  date : string;
  source_page_index : nat
}.

Definition lowerChar (a : ascii) : ascii :=
  let n := nat_of_ascii a in
  if ((65 <=? n) && (n <=? 90))%nat then ascii_of_nat (n + 32) else a.

(** Every run of white space becomes one space. *)
Fixpoint collapse (inWs : bool) (s : list ascii) : list ascii :=
  match s with
  | [] => []
  | a :: s' =>
      if JS.isWhiteSpace a
      then (if inWs then collapse true s' else " "%char :: collapse true s')
      else a :: collapse false s'
  end.

Definition normalize (text : string) : string :=
  string_of_list_ascii
    (collapse false (map lowerChar (list_ascii_of_string text))).

(** Modelled from the spec: "Fingerprint = normalized (lower-cased,
    whitespace-collapsed) content concatenated with rating". *)
Definition fingerprint (r : RawReview) : string :=
  normalize (content r) +:+ pretty (rating r).

(** Modelled from the spec: "dedupe(batch, seen) -> (unique,
    removed_count)"; the first occurrence in scrape order wins and
    later matches are dropped. *)
Fixpoint dedupe (batch : list RawReview) (seen : gset string)
    : list RawReview * nat :=
  match batch with
  | [] => ([], 0%nat)
  | r :: rest =>
      if decide (fingerprint r ∈ seen)
      then let '(unique, removed) := dedupe rest seen in
           (unique, S removed)
      else let '(unique, removed) := dedupe rest ({[fingerprint r]} ∪ seen) in
           (r :: unique, removed)
  end.

End Dedup.

(** ** The status object

    The awaited value of [api.getStatus()] is a JavaScript object.  An
    object whose properties hold strings is a finite map from property
    names to strings; reading a property it does not have gives
    [undefined], which is falsy and not [===] to any string. *)

(** [status.status === 'running']. *)
Definition readsRunning (o : gmap string string) : bool :=
  match o !! "status" with
  | Some s => String.eqb s "running"
  | None => false
  end.

(** [checkStatus] on the object itself ([None] for a falsy answer). *)
Definition checkStatusObject (resp : option (gmap string string))
    (now : string) (c : Component) : Component :=
  match resp with
  | Some o =>
      let c1 := setIsRunning (readsRunning o) c in
      match o !! "message" with
      | Some m =>
          if JS.truthy m && negb (String.eqb m "Ready")
          then addLog m (if readsRunning o then info else success) now c1
          else c1
      | None => c1
      end
  | None => c
  end.



(** ** A start request that is still pending

    [handleStart] suspends at [await api.startPipeline(config)]: the
    first [addLog] runs at the click, the rest when the request settles,
    and polls and input are handled in between. *)





(** Up to 2^53 every integer is a double, so that [JS.Int] holds the
    number JavaScript computes. *)
Definition EXACT_INTEGERS : N := 9007199254740992.

(** ** Sample states used to exercise the statements below *)

(** A log that is exactly at capacity. *)
Definition fullLog : list LogEntry :=
  replicate 49 {| message := "Scraping"; type := info; timestamp := "10:00:00" |}
  ++ [{| message := "Done"; type := success; timestamp := "10:00:02" |}].

Definition fullComponent : Component :=
  {| isRunning := false; logs := fullLog; config := initialConfig |}.

(** The component while it shows a run in progress. *)
Definition runningComponent : Component :=
  {| isRunning := true; logs := []; config := initialConfig |}.

(** A session in which the Review Mining toggle is never clicked: the
    page count is edited, the headless toggle is clicked and the pipeline
    is started. *)
Definition sampleSession : list Event :=
  [PagesInput "3"; HeadlessToggle; MainClick Resolved "10:00:00" "10:00:01"].

(** A status object as the backend sends it between runs. *)
Definition readyStatus : StatusResponse :=
  {| status := "idle"; status_message := "Ready" |}.

(** A backend run in progress. *)
Definition runningPipeline : Pipeline.PipelineRun :=
  {| Pipeline.state := Pipeline.Running;
     Pipeline.current_message := "Scraping B0CX59H5W7" |}.

(** A start request as the backend receives it. *)
Definition sampleRunConfig : Pipeline.RunConfig :=
  {| Pipeline.targets := ["B0CX59H5W7"; "B0FHB5V36G"];
     Pipeline.page_limit := 2;
     Pipeline.run_headless := true;
     Pipeline.mining_enabled := true |}.

(** What the scheduler and the control surface do between a stop request
    and the end of the attempt in flight. *)
Definition midAttempt : list Pipeline.Action :=
  [Pipeline.DoStop "stop again";
   Pipeline.DoStart sampleRunConfig "start";
   Pipeline.DoSchedule Pipeline.AllTargetsDone "done";
   Pipeline.DoSchedule Pipeline.Retire "retire"].

(** Two reviews with the same fingerprint, one with another rating. *)
Definition sampleBatch : list Dedup.RawReview :=
  [ {| Dedup.target_identifier := "B0CX59H5W7"; Dedup.title := "Great";
       Dedup.rating := 5; Dedup.content := "Great  product";
       Dedup.date := "2024-01-01"; Dedup.source_page_index := 0%nat |};
    {| Dedup.target_identifier := "B0CX59H5W7"; Dedup.title := "great";
       Dedup.rating := 5; Dedup.content := "great product";
       Dedup.date := "2024-01-02"; Dedup.source_page_index := 1%nat |};
    {| Dedup.target_identifier := "B0CX59H5W7"; Dedup.title := "ok";
       Dedup.rating := 4; Dedup.content := "great product";
       Dedup.date := "2024-01-03"; Dedup.source_page_index := 1%nat |} ].

(** ** Views of the component used to state what it keeps *)

(** [logs.length === 0 && <div>Ready to start pipeline...</div>]: whether
    the placeholder of the log panel is rendered. *)
Definition placeholderShown (c : Component) : bool :=
  (length (logs c) =? 0)%nat.

(** [addLog] applied to the fields of an entry. *)
Definition addEntry (c : Component) (e : LogEntry) : Component :=
  addLog (message e) (type e) (timestamp e) c.

(** The messages [handleStart] and [handleStop] log with type warning. *)
Definition handlerWarnings : list string :=
  ["Failed to start pipeline"; "Pipeline stop requested";
   "Failed to stop pipeline"].

(** What holds of every entry the component writes: the message is
    truthy and is not 'Ready', and a warning carries one of the fixed
    messages of the two click handlers. *)
Definition writtenByComponent (e : LogEntry) : Prop :=
  message e <> ""
  /\ message e <> "Ready"
  /\ (type e = warning -> In (message e) handlerWarnings).

(** The four inputs of the configuration panel. *)
Definition isConfigInput (e : Event) : bool :=
  match e with
  | AsinsInput _ | PagesInput _ | HeadlessToggle | MiningToggle => true
  | MainClick _ _ _ | Poll _ _ => false
  end.

(** The events whose handler reaches a [setIsRunning] call: a click whose
    request resolves and a poll that resolves to a status object. *)
Definition reachesSetIsRunning (e : Event) : bool :=
  match e with
  | MainClick Resolved _ _ => true
  | Poll (Some _) _ => true
  | _ => false
  end.

Definition isPoll (e : Event) : bool :=
  match e with Poll _ _ => true | _ => false end.

Definition isGetStatus (call : ApiCall) : bool :=
  match call with GetStatus => true | _ => false end.

(** Whether what follows a decimal numeral ends it for [parseInt]: the
    end of the input, or a character that is neither a decimal digit nor
    the [x] of a hexadecimal prefix. *)
Definition endsNumeral (rest : string) : bool :=
  match rest with
  | EmptyString => true
  | String a _ =>
      negb (JS.isDecimalDigit a)
      && negb (Ascii.eqb a "x") && negb (Ascii.eqb a "X")
  end.

(** The entry [checkStatus] passes to [addLog] for a status object. *)
Definition statusEntry (st : StatusResponse) (now : string) : LogEntry :=
  {| message := status_message st;
     type := if String.eqb (status st) "running" then info else success;
     timestamp := now |}.

Definition isAsinsInput (e : Event) : bool :=
  match e with AsinsInput _ => true | _ => false end.

(** A status object of a run in progress. *)
Definition scrapingStatus : StatusResponse :=
  {| status := "running"; status_message := "Scraping B0CX59H5W7" |}.

(** * Properties *)

(** ** The log ring *)

Section LogRing.

Context {A : Type}.
Implicit Types (l : list A) (x : A).

Lemma slice_last_length k l : (length (JS.slice_last k l) <= k)%nat.
Proof. unfold JS.slice_last. rewrite length_drop. lia. Qed.

Lemma slice_last_short k l : (length l <= k)%nat -> JS.slice_last k l = l.
Proof.
  intros H. unfold JS.slice_last.
  replace (length l - k)%nat with 0%nat by lia. reflexivity.
Qed.

Lemma slice_last_snoc k l x :
  JS.slice_last (S k) (l ++ [x]) = JS.slice_last k l ++ [x].
Proof.
  unfold JS.slice_last. rewrite length_app. simpl.
  replace (length l + 1 - S k)%nat with (length l - k)%nat by lia.
  apply drop_app_le. lia.
Qed.

End LogRing.

Lemma appendLog_spec e prev :
  appendLog e prev = JS.slice_last (LOG_CAPACITY - 1) prev ++ [e].
Proof. unfold appendLog, LOG_CAPACITY. simpl. apply slice_last_snoc. Qed.

Lemma appendLog_length e prev : (length (appendLog e prev) <= LOG_CAPACITY)%nat.
Proof. apply slice_last_length. Qed.

Lemma appendLog_last e prev : last (appendLog e prev) = Some e.
Proof. rewrite appendLog_spec. apply last_snoc. Qed.

Lemma logs_addLog msg ty now c :
  logs (addLog msg ty now c)
  = appendLog {| message := msg; type := ty; timestamp := now |} (logs c).
Proof. reflexivity. Qed.

Lemma isRunning_addLog msg ty now c :
  isRunning (addLog msg ty now c) = isRunning c.
Proof. reflexivity. Qed.

Lemma config_addLog msg ty now c : config (addLog msg ty now c) = config c.
Proof. reflexivity. Qed.

(** Every handler leaves a log within capacity when it found one. *)
Lemma step_log_bound c e :
  (length (logs c) <= LOG_CAPACITY)%nat ->
  (length (logs (fst (step c e))) <= LOG_CAPACITY)%nat.
Proof.
  intros Hc. destruct e as [v|v| | |r t1 t2|resp now]; simpl; try exact Hc.
  - unfold mainButton. destruct (isRunning c); simpl.
    + destruct r; apply appendLog_length.
    + destruct r; apply appendLog_length.
  - unfold checkStatus. destruct resp as [st|]; [|exact Hc].
    destruct (_ && _); [apply appendLog_length | exact Hc].
Qed.

Lemma run_log_bound evs : forall c,
  (length (logs c) <= LOG_CAPACITY)%nat ->
  (length (logs (fst (run c evs))) <= LOG_CAPACITY)%nat.
Proof.
  induction evs as [|e evs IH]; intros c Hc; simpl; [exact Hc|].
  pose proof (step_log_bound c e Hc) as Hs.
  destruct (step c e) as [c1 sent1]. simpl in Hs.
  specialize (IH c1 Hs). destruct (run c1 evs) as [c2 sent2]. exact IH.
Qed.

(** C4: the execution log is a ring of capacity 50.  Every [addLog] puts
    its entry at the end of the log; the log never holds more than 50
    entries, after one call from any state and after any sequence of
    events from the initial state; below capacity the entry is simply
    appended, and at capacity the oldest entry is dropped and the others
    keep their order. *)
Theorem addLog_bounded_ring :
  forall msg ty now c,
    let e := {| message := msg; type := ty; timestamp := now |} in
    last (logs (addLog msg ty now c)) = Some e
    /\ (length (logs (addLog msg ty now c)) <= 50)%nat
    /\ (forall evs, (length (logs (fst (run initial evs))) <= 50)%nat)
    /\ ((length (logs c) < 50)%nat ->
        logs (addLog msg ty now c) = logs c ++ [e])
    /\ (length (logs c) = 50%nat ->
        logs (addLog msg ty now c) = tail (logs c) ++ [e]).
Proof.
  intros msg ty now c e. rewrite logs_addLog. fold e.
  split; [apply appendLog_last|].
  split; [apply appendLog_length|].
  split; [intros evs; apply run_log_bound; simpl; unfold LOG_CAPACITY; lia|].
  rewrite appendLog_spec. split; intros Hlen.
  - rewrite slice_last_short; [reflexivity | unfold LOG_CAPACITY; lia].
  - unfold JS.slice_last, LOG_CAPACITY. rewrite Hlen. simpl.
    destruct (logs c); reflexivity.
Qed.

Lemma addLog_bounded_ring_witness :
  logs (addLog "Pipeline started successfully" success "10:00:04" initial)
  = [{| message := "Pipeline started successfully"; type := success;
        timestamp := "10:00:04" |}]
  /\ logs (addLog "Pipeline stop requested" warning "10:00:04" fullComponent)
     = tail fullLog
       ++ [{| message := "Pipeline stop requested"; type := warning;
              timestamp := "10:00:04" |}].
Proof.
  split.
  - destruct (addLog_bounded_ring "Pipeline started successfully" success
                "10:00:04" initial) as (_ & _ & _ & Hbelow & _).
    apply Hbelow. simpl. lia.
  - destruct (addLog_bounded_ring "Pipeline stop requested" warning
                "10:00:04" fullComponent) as (_ & _ & _ & _ & Hfull).
    apply Hfull. reflexivity.
Defined.

(** ** Configuration inputs *)

(** C9: a click on the Headless Mode toggle negates [headless] and a
    click on the Review Mining toggle negates [mining]; the other three
    configuration fields, the running indicator and the log are left as
    they were, and neither click sends a request to the backend. *)
Theorem toggle_frame :
  forall c,
    (let c' := fst (step c HeadlessToggle) in
     headless (config c') = negb (headless (config c))
     /\ asins (config c') = asins (config c)
     /\ pages (config c') = pages (config c)
     /\ mining (config c') = mining (config c)
     /\ isRunning c' = isRunning c
     /\ logs c' = logs c
     /\ snd (step c HeadlessToggle) = [])
    /\
    (let c' := fst (step c MiningToggle) in
     mining (config c') = negb (mining (config c))
     /\ asins (config c') = asins (config c)
     /\ pages (config c') = pages (config c)
     /\ headless (config c') = headless (config c)
     /\ isRunning c' = isRunning c
     /\ logs c' = logs c
     /\ snd (step c MiningToggle) = []).
Proof. intros c. simpl. repeat split. Qed.

Lemma step_mining c e :
  touchesMining e = false ->
  mining (config (fst (step c e))) = mining (config c).
Proof.
  destruct e as [v|v| | |r t1 t2|resp now]; simpl; intros H;
    try reflexivity; try discriminate.
  - unfold mainButton. destruct (isRunning c), r; reflexivity.
  - unfold checkStatus. destruct resp as [st|]; [|reflexivity].
    destruct (_ && _); reflexivity.
Qed.

Lemma step_sent_config c e body :
  In (StartPipeline body) (snd (step c e)) -> body = config c.
Proof.
  destruct e as [v|v| | |r t1 t2|resp now]; simpl; try tauto.
  - unfold mainButton. destruct (isRunning c); simpl;
      intros [H|[]]; congruence.
  - intros [H|[]]. discriminate.
Qed.

Lemma run_mining evs : forall c,
  forallb (fun e => negb (touchesMining e)) evs = true ->
  mining (config c) = true ->
  mining (config (fst (run c evs))) = true
  /\ forall body, In (StartPipeline body) (snd (run c evs)) -> mining body = true.
Proof.
  induction evs as [|e evs IH]; intros c Hevs Hc; simpl.
  - split; [exact Hc | intros body []].
  - simpl in Hevs. apply andb_true_iff in Hevs as [He Hevs].
    apply negb_true_iff in He.
    pose proof (step_mining c e He) as Hm.
    pose proof (step_sent_config c e) as Hs.
    destruct (step c e) as [c1 sent1]. simpl in Hm, Hs.
    assert (Hc1 : mining (config c1) = true) by congruence.
    destruct (IH c1 Hevs Hc1) as [IH1 IH2].
    destruct (run c1 evs) as [c2 sent2]. simpl in *.
    split; [exact IH1|].
    intros body Hin. apply in_app_or in Hin as [Hin|Hin].
    + rewrite (Hs body Hin). exact Hc.
    + apply IH2. exact Hin.
Qed.

(** C6: the initial configuration of the control panel has
    [mining = true], and as long as the Review Mining toggle is not
    clicked, whatever else happens, the configuration keeps it and every
    start request sent to the backend carries [mining = true]. *)
Theorem mining_default_true :
  forall evs,
    forallb (fun e => negb (touchesMining e)) evs = true ->
    mining initialConfig = true
    /\ mining (config initial) = true
    /\ mining (config (fst (run initial evs))) = true
    /\ forall body,
         In (StartPipeline body) (snd (run initial evs)) -> mining body = true.
Proof.
  intros evs Hevs. split; [reflexivity|]. split; [reflexivity|].
  apply run_mining; [exact Hevs | reflexivity].
Qed.

Lemma mining_default_true_witness :
  mining (config (fst (run initial sampleSession))) = true
  /\ forall body,
       In (StartPipeline body) (snd (run initial sampleSession)) ->
       mining body = true.
Proof.
  destruct (mining_default_true sampleSession) as (_ & _ & Hcfg & Hsent).
  - reflexivity.
  - split; [exact Hcfg | exact Hsent].
Defined.

(** *** The page-count input *)

Lemma radixDigit_not_decimal a :
  JS.isDecimalDigit a = false -> JS.radixDigit 10 a = None.
Proof.
  destruct a as [[|] [|] [|] [|] [|] [|] [|] [|]];
    vm_compute; intros H; first [reflexivity | discriminate H].
Qed.

Lemma stripPrefix_not_decimal a r :
  JS.isDecimalDigit a = false -> JS.stripPrefix (a :: r) = (10, a :: r).
Proof.
  destruct a as [[|] [|] [|] [|] [|] [|] [|] [|]];
    intros H; first [reflexivity | vm_compute in H; discriminate H].
Qed.

Lemma parseInt_NaN input :
  JS.startsWithDigit input = false -> JS.parseInt input = JS.NaN.
Proof.
  unfold JS.startsWithDigit, JS.parseInt.
  destruct (JS.stripSign _) as [sign S1]. simpl.
  destruct S1 as [|a r]; [reflexivity|]. intros H.
  rewrite (stripPrefix_not_decimal a r H). simpl.
  rewrite (radixDigit_not_decimal a H). reflexivity.
Qed.

(** C10: when the raw value of the Pages per Product input does not
    start with a number (the cleared field gives the empty string),
    [parseInt] yields NaN, the change handler stores that NaN in
    [config.pages] without any guard and leaves the other fields alone,
    and the start request sent next carries exactly that configuration. *)
Theorem pages_NaN_submitted :
  forall value c r t1 t2,
    JS.startsWithDigit value = false ->
    mainButton c = StartButton ->
    let c' := onPagesChange value c in
    pages (config c') = JS.NaN
    /\ asins (config c') = asins (config c)
    /\ headless (config c') = headless (config c)
    /\ mining (config c') = mining (config c)
    /\ snd (step c' (MainClick r t1 t2)) = [StartPipeline (config c')]
    /\ forall body,
         In (StartPipeline body) (snd (step c' (MainClick r t1 t2))) ->
         pages body = JS.NaN.
Proof.
  intros value c r t1 t2 Hraw Hbtn c'.
  assert (Hnan : pages (config c') = JS.NaN) by (simpl; apply parseInt_NaN, Hraw).
  assert (Hsent : snd (step c' (MainClick r t1 t2)) = [StartPipeline (config c')]).
  { simpl. replace (mainButton c') with (mainButton c) by reflexivity.
    rewrite Hbtn. reflexivity. }
  repeat split; try assumption.
  intros body Hin. rewrite Hsent in Hin. destruct Hin as [Heq|[]].
  inversion Heq; subst body. exact Hnan.
Qed.

Lemma pages_NaN_submitted_witness :
  (pages (config (onPagesChange "" initial)) = JS.NaN
   /\ snd (step (onPagesChange "" initial)
             (MainClick Resolved "10:00:00" "10:00:01"))
      = [StartPipeline (config (onPagesChange "" initial))])
  /\ pages (config (onPagesChange "abc" initial)) = JS.NaN.
Proof.
  split.
  - destruct (pages_NaN_submitted "" initial Resolved "10:00:00" "10:00:01")
      as (Hnan & _ & _ & _ & Hsent & _); [reflexivity | reflexivity |].
    split; [exact Hnan | exact Hsent].
  - destruct (pages_NaN_submitted "abc" initial Resolved "10:00:00" "10:00:01")
      as (Hnan & _); [reflexivity | reflexivity |].
    exact Hnan.
Defined.

(** ** Status polling *)

Lemma isRunning_checkStatus st now c :
  isRunning (checkStatus (Some st) now c) = String.eqb (status st) "running".
Proof.
  unfold checkStatus. destruct (_ && _); reflexivity.
Qed.

Lemma fires_onMount t0 now :
  fires (onMount t0) now = true
  <-> exists k, 0 < k /\ now = t0 + POLL_DELAY * k.
Proof.
  unfold fires, onMount, POLL_DELAY. simpl.
  rewrite andb_true_iff, Z.ltb_lt, Z.eqb_eq. split.
  - intros [Hlt Hmod]. exists ((now - t0) / 2000).
    pose proof (Z.div_mod (now - t0) 2000 ltac:(lia)) as Hdm.
    rewrite Hmod in Hdm. split; lia.
  - intros (k & Hk & ->). split; [lia|].
    replace (t0 + 2000 * k - t0) with (k * 2000) by lia.
    apply Z.mod_mul. lia.
Qed.

(** C8: a status poll that resolves to a status object sets the running
    indicator to whether its status field is 'running', whatever the
    indicator was before, in particular after [handleStart] or
    [handleStop] set it on their own; the poll is registered on mount
    with a delay of 2000 ms, so it fires at every multiple of 2 s after
    mounting, and not at all once the component is unmounted. *)
Theorem poll_overwrites_indicator :
  (forall st now c,
     isRunning (checkStatus (Some st) now c) = true
     <-> status st = "running")
  /\ (forall st now r t1 t2 c,
        isRunning (checkStatus (Some st) now (handleStart r t1 t2 c))
        = String.eqb (status st) "running")
  /\ (forall st now r t c,
        isRunning (checkStatus (Some st) now (handleStop r t c))
        = String.eqb (status st) "running")
  /\ (forall t0 now,
        fires (onMount t0) now = true
        <-> exists k, 0 < k /\ now = t0 + 2000 * k)
  /\ (forall t0 now, fires (onUnmount (onMount t0)) now = false).
Proof.
  split; [|split; [|split; [|split]]].
  - intros st now c. rewrite isRunning_checkStatus. apply String.eqb_eq.
  - intros. apply isRunning_checkStatus.
  - intros. apply isRunning_checkStatus.
  - intros t0 now. apply fires_onMount.
  - reflexivity.
Qed.

Lemma truthy_nonempty s : JS.truthy s = true <-> s <> "".
Proof. destruct s; simpl; split; congruence. Qed.

Lemma checkStatus_logged st now c :
  status_message st <> "" ->
  status_message st <> "Ready" ->
  checkStatus (Some st) now c
  = addLog (status_message st)
      (if String.eqb (status st) "running" then info else success) now
      (setIsRunning (String.eqb (status st) "running") c).
Proof.
  intros Hne Hready. unfold checkStatus.
  apply truthy_nonempty in Hne. apply String.eqb_neq in Hready.
  rewrite Hne, Hready. reflexivity.
Qed.

Lemma checkStatus_silent st now c :
  status_message st = "" \/ status_message st = "Ready" ->
  checkStatus (Some st) now c
  = setIsRunning (String.eqb (status st) "running") c.
Proof.
  intros [H|H]; unfold checkStatus; rewrite H; reflexivity.
Qed.

(** C5, as the component does it: a status poll whose message is
    non-empty and different from 'Ready' puts that message at the end of
    the run log, tagged info when the polled status is 'running' and
    success otherwise; a poll whose message is empty or 'Ready' leaves the
    log as it was. *)
Theorem poll_message_logged :
  forall st now c,
    (status_message st <> "" ->
     status_message st <> "Ready" ->
     last (logs (checkStatus (Some st) now c))
     = Some {| message := status_message st;
               type := if String.eqb (status st) "running"
                       then info else success;
               timestamp := now |})
    /\ (status_message st = "" \/ status_message st = "Ready" ->
        logs (checkStatus (Some st) now c) = logs c).
Proof.
  intros st now c. split.
  - intros Hne Hready. rewrite checkStatus_logged by assumption.
    rewrite logs_addLog. apply appendLog_last.
  - intros H. rewrite checkStatus_silent by assumption. reflexivity.
Qed.

Lemma poll_message_logged_witness :
  last (logs (checkStatus
                (Some {| status := "error";
                         status_message := "Browser could not be launched" |})
                "10:00:06" fullComponent))
  = Some {| message := "Browser could not be launched"; type := success;
            timestamp := "10:00:06" |}
  /\ logs (checkStatus (Some readyStatus) "10:00:06" fullComponent) = fullLog.
Proof.
  split.
  - destruct (poll_message_logged
                {| status := "error";
                   status_message := "Browser could not be launched" |}
                "10:00:06" fullComponent) as [Hlogged _].
    apply Hlogged; discriminate.
  - destruct (poll_message_logged readyStatus "10:00:06" fullComponent)
      as [_ Hsilent].
    apply Hsilent. right. reflexivity.
Defined.

(** C5 as stated fails: the poll returns the message 'Ready', and the run
    log has no entry for it afterwards. *)
Lemma ready_message_not_logged :
  let c' := checkStatus (Some readyStatus) "10:00:02" initial in
  status_message readyStatus = "Ready"
  /\ logs c' = []
  /\ ~ (exists e, In e (logs c') /\ message e = status_message readyStatus).
Proof.
  simpl. split; [reflexivity|]. split; [reflexivity|].
  intros (e & [] & _).
Qed.

Lemma checkStatusObject_agrees o s m now c :
  o !! "status" = Some s ->
  o !! "message" = Some m ->
  checkStatusObject (Some o) now c
  = checkStatus (Some {| status := s; status_message := m |}) now c.
Proof.
  intros Hs Hm. unfold checkStatusObject, checkStatus, readsRunning.
  rewrite Hs, Hm. reflexivity.
Qed.





(** The same poll with the property the component does read. *)
Example status_running_reads_running :
  isRunning (checkStatusObject
               (Some {[ "status" := "running"; "message" := "Scraping" ]})
               "10:00:02" initial) = true.
Proof. vm_compute. reflexivity. Qed.

(** ** Start and stop *)

(** C3: [start] on a run state that is not Idle fails with
    AlreadyRunning and leaves the run state as it is; when the start
    request of the component is rejected, [handleStart] returns with the
    running indicator still false and the configuration unchanged, and the
    last entry of the log is the warning 'Failed to start pipeline'. *)
Theorem start_failure_contained :
  forall cfg msg p t1 t2 c,
    Pipeline.state p <> Pipeline.Idle ->
    isRunning c = false ->
    Pipeline.start cfg msg p = inl Pipeline.AlreadyRunning
    /\ Pipeline.act p (Pipeline.DoStart cfg msg) = p
    /\ isRunning (handleStart Rejected t1 t2 c) = false
    /\ config (handleStart Rejected t1 t2 c) = config c
    /\ mainButton (handleStart Rejected t1 t2 c) = StartButton
    /\ last (logs (handleStart Rejected t1 t2 c))
       = Some {| message := "Failed to start pipeline"; type := warning;
                 timestamp := t2 |}.
Proof.
  intros cfg msg p t1 t2 c Hp Hc.
  assert (Hstart : Pipeline.start cfg msg p = inl Pipeline.AlreadyRunning).
  { unfold Pipeline.start. destruct (Pipeline.state p); congruence. }
  split; [exact Hstart|].
  split; [simpl; rewrite Hstart; reflexivity|].
  unfold handleStart, mainButton.
  rewrite !isRunning_addLog, !config_addLog, Hc, logs_addLog.
  repeat split. apply appendLog_last.
Qed.

Lemma start_failure_contained_witness :
  Pipeline.start sampleRunConfig "Starting" runningPipeline
  = inl Pipeline.AlreadyRunning
  /\ isRunning (handleStart Rejected "10:00:00" "10:00:01" initial) = false
  /\ last (logs (handleStart Rejected "10:00:00" "10:00:01" initial))
     = Some {| message := "Failed to start pipeline"; type := warning;
               timestamp := "10:00:01" |}.
Proof.
  destruct (start_failure_contained sampleRunConfig "Starting"
              runningPipeline "10:00:00" "10:00:01" initial)
    as (Hstart & _ & Hrun & _ & _ & Hlog).
  - discriminate.
  - reflexivity.
  - split; [exact Hstart|]. split; [exact Hrun | exact Hlog].
Defined.

Lemma act_keeps_stopping p a :
  Pipeline.state p = Pipeline.Stopping ->
  Pipeline.isBoundary a = false ->
  Pipeline.act p a = p.
Proof.
  intros Hp Ha. destruct a as [cfg msg|msg|s msg]; simpl.
  - unfold Pipeline.start. rewrite Hp. reflexivity.
  - unfold Pipeline.stop. rewrite Hp. reflexivity.
  - unfold Pipeline.schedule. rewrite Hp.
    destruct s; first [reflexivity | discriminate Ha].
Qed.

Lemma exec_keeps_stopping acts : forall p,
  Pipeline.state p = Pipeline.Stopping ->
  forallb (fun a => negb (Pipeline.isBoundary a)) acts = true ->
  Pipeline.exec p acts = p.
Proof.
  induction acts as [|a acts IH]; intros p Hp Hacts; [reflexivity|].
  simpl in Hacts. apply andb_true_iff in Hacts as [Ha Hacts].
  apply negb_true_iff in Ha. unfold Pipeline.exec. simpl.
  rewrite (act_keeps_stopping p a Hp Ha). apply IH; assumption.
Qed.

(** C1, as the code has it: [stop] on a Running pipeline moves it to
    Stopping, where it stays whatever else is requested until the
    scheduler reaches the attempt boundary, which takes it to Idle.  The
    component has no Stopping state of its own: as soon as the stop
    request is accepted, [handleStop] clears the running indicator, so the
    Start button is rendered again, and logs the warning 'Pipeline stop
    requested'; from the next status poll on the indicator again follows
    the polled status. *)
Theorem stop_is_graceful_indicator_optimistic :
  forall p msg acts t c,
    Pipeline.state p = Pipeline.Running ->
    forallb (fun a => negb (Pipeline.isBoundary a)) acts = true ->
    Pipeline.state (Pipeline.stop msg p) = Pipeline.Stopping
    /\ Pipeline.state (Pipeline.exec (Pipeline.stop msg p) acts)
       = Pipeline.Stopping
    /\ (forall m,
          Pipeline.state
            (Pipeline.schedule Pipeline.AttemptBoundary m
               (Pipeline.exec (Pipeline.stop msg p) acts))
          = Pipeline.Idle)
    /\ isRunning (handleStop Resolved t c) = false
    /\ mainButton (handleStop Resolved t c) = StartButton
    /\ last (logs (handleStop Resolved t c))
       = Some {| message := "Pipeline stop requested"; type := warning;
                 timestamp := t |}
    /\ (forall st now,
          isRunning (checkStatus (Some st) now (handleStop Resolved t c))
          = String.eqb (status st) "running").
Proof.
  intros p msg acts t c Hp Hacts.
  assert (Hstop : Pipeline.state (Pipeline.stop msg p) = Pipeline.Stopping).
  { unfold Pipeline.stop. rewrite Hp. reflexivity. }
  rewrite (exec_keeps_stopping acts _ Hstop Hacts).
  split; [exact Hstop|]. split; [exact Hstop|].
  split.
  { intros m. unfold Pipeline.schedule. rewrite Hstop. reflexivity. }
  split; [reflexivity|]. split; [reflexivity|].
  split.
  { unfold handleStop. rewrite logs_addLog. apply appendLog_last. }
  intros st now. apply isRunning_checkStatus.
Qed.

Lemma stop_is_graceful_indicator_optimistic_witness :
  Pipeline.state
    (Pipeline.exec (Pipeline.stop "Stopping" runningPipeline) midAttempt)
  = Pipeline.Stopping
  /\ isRunning (handleStop Resolved "10:00:03" runningComponent) = false.
Proof.
  destruct (stop_is_graceful_indicator_optimistic runningPipeline "Stopping"
              midAttempt "10:00:03" runningComponent)
    as (_ & Hstays & _ & Hind & _).
  - reflexivity.
  - reflexivity.
  - split; [exact Hstays | exact Hind].
Defined.

(** C1 as stated fails: the pipeline is Running and the component shows
    it; the stop request is accepted, the state machine is in Stopping,
    not yet Idle, and the component already renders what it renders for
    an idle pipeline: indicator off, spinner off, Start button. *)
Lemma stop_reported_at_once :
  let p' := Pipeline.stop "Stopping" runningPipeline in
  let c' := handleStop Resolved "10:00:03" runningComponent in
  Pipeline.state runningPipeline = Pipeline.Running
  /\ isRunning runningComponent = true
  /\ Pipeline.state p' = Pipeline.Stopping
  /\ Pipeline.state p' <> Pipeline.Idle
  /\ isRunning c' = isRunning initial
  /\ spinnerShown c' = spinnerShown initial
  /\ mainButton c' = mainButton initial
  /\ mainButton c' = StartButton.
Proof.
  simpl. repeat split. discriminate.
Qed.

(** ** Deduplication *)

Section DedupFacts.

Import Dedup.

Implicit Types (batch : list RawReview) (seen : gset string).

(** What [dedupe] keeps is new with respect to [seen] and free of
    repeated fingerprints. *)
Lemma dedupe_unique_fresh batch : forall seen,
  (forall r, r ∈ (dedupe batch seen).1 -> fingerprint r ∉ seen)
  /\ NoDup (fingerprint <$> (dedupe batch seen).1).
Proof.
  induction batch as [|r rest IH]; intros seen; simpl.
  - split; [intros r Hr; inversion Hr | constructor].
  - destruct (decide (fingerprint r ∈ seen)) as [Hin|Hnew].
    + specialize (IH seen). destruct (dedupe rest seen) as [u n]. exact IH.
    + specialize (IH ({[fingerprint r]} ∪ seen)).
      destruct (dedupe rest ({[fingerprint r]} ∪ seen)) as [u n].
      simpl in *. destruct IH as [Hfresh Hnodup]. split.
      * intros r' Hr'. apply elem_of_cons in Hr' as [->|Hr']; [exact Hnew|].
        specialize (Hfresh r' Hr'). set_solver.
      * constructor; [|exact Hnodup].
        intros Hdup. apply list_elem_of_fmap in Hdup as (r' & Heq & Hr').
        specialize (Hfresh r' Hr'). set_solver.
Qed.

(** A batch that is new with respect to [seen] and free of repeated
    fingerprints passes through unchanged. *)
Lemma dedupe_fixed batch : forall seen,
  (forall r, r ∈ batch -> fingerprint r ∉ seen) ->
  NoDup (fingerprint <$> batch) ->
  dedupe batch seen = (batch, 0%nat).
Proof.
  induction batch as [|r rest IH]; intros seen Hfresh Hnodup; simpl;
    [reflexivity|].
  rewrite fmap_cons in Hnodup. apply NoDup_cons in Hnodup as [Hr Hrest].
  destruct (decide (fingerprint r ∈ seen)) as [Hin|Hnew].
  - exfalso. apply (Hfresh r); [left | exact Hin].
  - rewrite IH; [reflexivity | | exact Hrest].
    intros r' Hr' Hin. apply elem_of_union in Hin as [Hin|Hin].
    + apply elem_of_singleton in Hin. apply Hr. rewrite <- Hin.
      apply list_elem_of_fmap. exists r'. split; [reflexivity | exact Hr'].
    + apply (Hfresh r'); [right; exact Hr' | exact Hin].
Qed.

(** Every review of the batch is either kept or counted as removed. *)
Lemma dedupe_count batch : forall seen,
  (length (dedupe batch seen).1 + (dedupe batch seen).2 = length batch)%nat.
Proof.
  induction batch as [|r rest IH]; intros seen; simpl; [reflexivity|].
  destruct (decide (fingerprint r ∈ seen)).
  - specialize (IH seen). destruct (dedupe rest seen). simpl in *. lia.
  - specialize (IH ({[fingerprint r]} ∪ seen)).
    destruct (dedupe rest _). simpl in *. lia.
Qed.

End DedupFacts.

(** C7: [dedupe] is idempotent.  For every batch and every set of
    fingerprints seen before, running [dedupe] again on the reviews it
    kept removes none of them: the second run returns the same reviews
    and a removed count of zero. *)
Theorem dedupe_idempotent :
  forall (batch : list Dedup.RawReview) (seen : gset string),
    Dedup.dedupe (Dedup.dedupe batch seen).1 seen
    = ((Dedup.dedupe batch seen).1, 0%nat).
Proof.
  intros batch seen.
  destruct (dedupe_unique_fresh batch seen) as [Hfresh Hnodup].
  apply dedupe_fixed; assumption.
Qed.

Example dedupe_sampleBatch :
  (Dedup.dedupe sampleBatch ∅).2 = 1%nat
  /\ length (Dedup.dedupe sampleBatch ∅).1 = 2%nat
  /\ (Dedup.dedupe (Dedup.dedupe sampleBatch ∅).1 ∅).2 = 0%nat.
Proof. vm_compute. repeat split. Qed.

(** * Further properties of the component *)

(** ** The ring over a whole history *)

Lemma slice_last_idem_app {A} k (l es : list A) :
  JS.slice_last k (JS.slice_last k l ++ es) = JS.slice_last k (l ++ es).
Proof.
  destruct (decide (length l <= k)%nat) as [Hle|Hgt].
  - rewrite (slice_last_short k l Hle). reflexivity.
  - unfold JS.slice_last. rewrite !length_app, length_drop.
    replace (length l - (length l - k) + length es - k)%nat
      with (length es) by lia.
    replace (length l + length es - k)%nat
      with ((length l - k) + length es)%nat by lia.
    rewrite <- drop_drop. f_equal. symmetry. apply drop_app_le. lia.
Qed.

Lemma logs_addEntry c e : logs (addEntry c e) = appendLog e (logs c).
Proof. destruct e. reflexivity. Qed.

(** X1: the log is the tail of the whole history.  Starting from a log
    within capacity, after any number of [addLog] calls the log is exactly
    the last 50 entries of the old log followed by all entries added, in
    the order of the calls. *)
Theorem log_is_tail_of_history :
  forall (es : list LogEntry) (c : Component),
    (length (logs c) <= 50)%nat ->
    logs (fold_left addEntry es c) = JS.slice_last 50 (logs c ++ es).
Proof.
  induction es as [|e es IH]; intros c Hc; simpl.
  - rewrite app_nil_r. symmetry. apply slice_last_short. exact Hc.
  - rewrite IH by (rewrite logs_addEntry; apply appendLog_length).
    rewrite logs_addEntry. unfold appendLog, LOG_CAPACITY.
    rewrite slice_last_idem_app, <- app_assoc. reflexivity.
Qed.

Lemma log_is_tail_of_history_witness :
  logs (fold_left addEntry
          [ {| message := "a"; type := info; timestamp := "10:00:05" |};
            {| message := "b"; type := warning; timestamp := "10:00:06" |} ]
          fullComponent)
  = drop 2 fullLog
    ++ [ {| message := "a"; type := info; timestamp := "10:00:05" |};
         {| message := "b"; type := warning; timestamp := "10:00:06" |} ].
Proof.
  rewrite (log_is_tail_of_history _ fullComponent).
  - reflexivity.
  - simpl. lia.
Defined.

(** ** What a session keeps *)

(** An invariant kept by every permitted event is kept by a session of
    permitted events. *)
Lemma run_invariant (I : Component -> Prop) (permitted : Event -> bool) :
  (forall c e, permitted e = true -> I c -> I (fst (step c e))) ->
  forall evs c,
    forallb permitted evs = true -> I c -> I (fst (run c evs)).
Proof.
  intros Hstep. induction evs as [|e evs IH]; intros c Hevs Hc; simpl.
  - exact Hc.
  - simpl in Hevs. apply andb_true_iff in Hevs as [He Hevs].
    pose proof (Hstep c e He Hc) as Hc1.
    destruct (step c e) as [c1 sent1]. simpl in Hc1.
    specialize (IH c1 Hevs Hc1). destruct (run c1 evs) as [c2 sent2].
    exact IH.
Qed.

Lemma forallb_const_true {A} (l : list A) : forallb (fun _ => true) l = true.
Proof. induction l; simpl; auto. Qed.

Lemma Forall_appendLog (P : LogEntry -> Prop) e prev :
  P e -> Forall P prev -> Forall P (appendLog e prev).
Proof.
  intros He Hprev. unfold appendLog, JS.slice_last.
  apply Forall_drop, Forall_app. split; [exact Hprev|].
  constructor; [exact He | constructor].
Qed.

Lemma step_written c e :
  Forall writtenByComponent (logs c) ->
  Forall writtenByComponent (logs (fst (step c e))).
Proof.
  intros Hc. destruct e as [v|v| | |r t1 t2|resp now]; simpl; try exact Hc.
  - unfold mainButton. destruct (isRunning c), r; simpl;
      repeat (apply Forall_appendLog; [|]); try exact Hc;
      (split; [discriminate | split; [discriminate |]]);
      simpl; unfold handlerWarnings; simpl; intros; try discriminate; tauto.
  - unfold checkStatus. destruct resp as [st|]; [|exact Hc].
    destruct (JS.truthy (status_message st)) eqn:Htruthy; simpl; [|exact Hc].
    destruct (String.eqb (status_message st) "Ready") eqn:Hready; simpl;
      [exact Hc|].
    apply Forall_appendLog; [|exact Hc].
    split; [apply truthy_nonempty, Htruthy|].
    split; [apply String.eqb_neq, Hready|].
    simpl. destruct (String.eqb (status st) "running"); discriminate.
Qed.

(** X3: every entry of the log was written with a non-empty message
    other than 'Ready', and every warning in it carries one of the three
    fixed messages of the click handlers: a message that comes from a
    status poll, an error reported by the backend included, is never shown
    as a warning.  This holds after any session from the initial state. *)
Theorem log_entries_well_formed :
  forall evs e,
    In e (logs (fst (run initial evs))) ->
    message e <> ""
    /\ message e <> "Ready"
    /\ (type e = warning ->
        message e = "Failed to start pipeline"
        \/ message e = "Pipeline stop requested"
        \/ message e = "Failed to stop pipeline").
Proof.
  intros evs e Hin.
  assert (Hall : Forall writtenByComponent (logs (fst (run initial evs)))).
  { apply (run_invariant (fun c => Forall writtenByComponent (logs c))
             (fun _ => true)).
    - intros c ev _. apply step_written.
    - apply forallb_const_true.
    - constructor. }
  rewrite Forall_forall in Hall.
  destruct (Hall e) as (Hne & Hready & Hwarn).
  { apply list_elem_of_In. exact Hin. }
  split; [exact Hne|]. split; [exact Hready|].
  intros Hty. specialize (Hwarn Hty). simpl in Hwarn.
  destruct Hwarn as [H|[H|[H|[]]]]; auto.
Qed.

Lemma log_entries_well_formed_witness :
  message {| message := "Initiating pipeline start..."; type := info;
             timestamp := "10:00:00" |} <> "Ready".
Proof.
  apply (log_entries_well_formed sampleSession
           {| message := "Initiating pipeline start..."; type := info;
              timestamp := "10:00:00" |}).
  simpl. left. reflexivity.
Defined.

Lemma appendLog_nonempty e prev : appendLog e prev <> [].
Proof.
  intros H. pose proof (appendLog_last e prev) as Hlast.
  rewrite H in Hlast. discriminate.
Qed.

Lemma placeholder_hidden c :
  placeholderShown c = false <-> logs c <> [].
Proof.
  unfold placeholderShown. destruct (logs c); simpl; split; congruence.
Qed.

Lemma step_keeps_log_nonempty c e :
  logs c <> [] -> logs (fst (step c e)) <> [].
Proof.
  intros Hc. destruct e as [v|v| | |r t1 t2|resp now]; simpl; try exact Hc.
  - unfold mainButton. destruct (isRunning c), r; apply appendLog_nonempty.
  - unfold checkStatus. destruct resp as [st|]; [|exact Hc].
    destruct (_ && _); [apply appendLog_nonempty | exact Hc].
Qed.

(** X4: the placeholder 'Ready to start pipeline...' of the log panel is
    gone for good after the first entry.  Nothing the component does empties
    the log: once it is non-empty it stays so through any session, and every
    click on the main button, whatever its outcome, leaves it non-empty. *)
Theorem placeholder_never_returns :
  forall c,
    (forall evs,
       placeholderShown c = false ->
       placeholderShown (fst (run c evs)) = false)
    /\ (forall r t1 t2 evs,
          placeholderShown
            (fst (run c (MainClick r t1 t2 :: evs))) = false).
Proof.
  intros c.
  assert (Hkeep : forall c0 evs,
            logs c0 <> [] -> logs (fst (run c0 evs)) <> []).
  { intros c0 evs H0.
    apply (run_invariant (fun c1 => logs c1 <> []) (fun _ => true)).
    - intros c1 e _. apply step_keeps_log_nonempty.
    - apply forallb_const_true.
    - exact H0. }
  split.
  - intros evs Hc. apply placeholder_hidden, Hkeep.
    apply placeholder_hidden, Hc.
  - intros r t1 t2 evs. apply placeholder_hidden.
    change (run c (MainClick r t1 t2 :: evs))
      with (let '(c1, sent1) := step c (MainClick r t1 t2) in
            let '(c2, sent2) := run c1 evs in (c2, sent1 ++ sent2)).
    assert (H1 : logs (fst (step c (MainClick r t1 t2))) <> []).
    { simpl. unfold mainButton.
      destruct (isRunning c), r; apply appendLog_nonempty. }
    destruct (step c (MainClick r t1 t2)) as [c1 sent1]. simpl in H1.
    specialize (Hkeep c1 evs H1).
    destruct (run c1 evs) as [c2 sent2]. exact Hkeep.
Qed.

Lemma placeholder_never_returns_witness :
  placeholderShown initial = true
  /\ placeholderShown (fst (run fullComponent sampleSession)) = false.
Proof.
  split; [reflexivity|].
  destruct (placeholder_never_returns fullComponent) as [Hkeep _].
  apply Hkeep. reflexivity.
Defined.

Lemma step_config c e :
  isConfigInput e = false -> config (fst (step c e)) = config c.
Proof.
  destruct e as [v|v| | |r t1 t2|resp now]; simpl; intros H;
    try discriminate H.
  - unfold mainButton. destruct (isRunning c), r; reflexivity.
  - unfold checkStatus. destruct resp as [st|]; [|reflexivity].
    destruct (_ && _); reflexivity.
Qed.

Lemma step_config_input c e :
  isConfigInput e = true ->
  isRunning (fst (step c e)) = isRunning c
  /\ logs (fst (step c e)) = logs c
  /\ snd (step c e) = [].
Proof.
  destruct e as [v|v| | |r t1 t2|resp now]; simpl; intros H;
    try discriminate H; repeat split.
Qed.

(** X5: the two sides of the panel do not interfere.  A session without
    configuration input (clicks on the main button and status polls only,
    whatever their outcome) leaves the configuration as it was; a session
    of configuration input only (ASINs, pages, the two toggles) leaves the
    running indicator and the log as they were and sends nothing to the
    backend. *)
Theorem config_and_control_independent :
  forall evs c,
    (forallb (fun e => negb (isConfigInput e)) evs = true ->
     config (fst (run c evs)) = config c)
    /\ (forallb isConfigInput evs = true ->
        isRunning (fst (run c evs)) = isRunning c
        /\ logs (fst (run c evs)) = logs c
        /\ snd (run c evs) = []).
Proof.
  intros evs c. split.
  - intros Hevs.
    apply (run_invariant (fun c1 => config c1 = config c)
             (fun e => negb (isConfigInput e))); [|exact Hevs|reflexivity].
    intros c1 e He Hc1. apply negb_true_iff in He.
    rewrite step_config; assumption.
  - revert c. induction evs as [|e evs IH]; intros c Hevs; simpl.
    + repeat split.
    + simpl in Hevs. apply andb_true_iff in Hevs as [He Hevs].
      destruct (step_config_input c e He) as (Hrun & Hlogs & Hsent).
      destruct (step c e) as [c1 sent1]. simpl in Hrun, Hlogs, Hsent.
      destruct (IH c1 Hevs) as (IHrun & IHlogs & IHsent).
      destruct (run c1 evs) as [c2 sent2]. simpl in *.
      subst sent1 sent2. repeat split; congruence.
Qed.

Lemma config_and_control_independent_witness :
  config (fst (run fullComponent
                 [MainClick Resolved "10:00:00" "10:00:01";
                  Poll (Some readyStatus) "10:00:02";
                  MainClick Rejected "10:00:03" "10:00:04"]))
  = initialConfig
  /\ logs (fst (run fullComponent
                  [PagesInput ""; AsinsInput "B0CX59H5W7"; MiningToggle]))
     = fullLog.
Proof.
  split.
  - destruct (config_and_control_independent
                [MainClick Resolved "10:00:00" "10:00:01";
                 Poll (Some readyStatus) "10:00:02";
                 MainClick Rejected "10:00:03" "10:00:04"] fullComponent)
      as [Hcfg _].
    apply Hcfg. reflexivity.
  - destruct (config_and_control_independent
                [PagesInput ""; AsinsInput "B0CX59H5W7"; MiningToggle]
                fullComponent) as [_ Hctl].
    apply Hctl. reflexivity.
Defined.

Lemma step_indicator c e :
  reachesSetIsRunning e = false -> isRunning (fst (step c e)) = isRunning c.
Proof.
  destruct e as [v|v| | |r t1 t2|resp now]; simpl; intros H;
    try reflexivity.
  - destruct r; [discriminate H|].
    unfold mainButton. destruct (isRunning c) eqn:Hr; simpl; exact Hr.
  - destruct resp; [discriminate H | reflexivity].
Qed.

(** X6: failures never move the running indicator.  Through any session
    in which every start or stop request is rejected and every status poll
    resolves to a falsy value, the indicator, and with it the main button
    and the spinner, stay as they were, while each rejected click still
    adds its warning to the log. *)
Theorem failures_keep_indicator :
  forall evs c,
    forallb (fun e => negb (reachesSetIsRunning e)) evs = true ->
    isRunning (fst (run c evs)) = isRunning c
    /\ mainButton (fst (run c evs)) = mainButton c
    /\ spinnerShown (fst (run c evs)) = spinnerShown c
    /\ (forall t1 t2,
          last (logs (fst (step (fst (run c evs)) (MainClick Rejected t1 t2))))
          = Some {| message := if isRunning c
                               then "Failed to stop pipeline"
                               else "Failed to start pipeline";
                    type := warning; timestamp := t2 |}).
Proof.
  intros evs c Hevs.
  assert (Hrun : isRunning (fst (run c evs)) = isRunning c).
  { apply (run_invariant (fun c1 => isRunning c1 = isRunning c)
             (fun e => negb (reachesSetIsRunning e)));
      [|exact Hevs|reflexivity].
    intros c1 e He Hc1. apply negb_true_iff in He.
    rewrite step_indicator; assumption. }
  unfold mainButton, spinnerShown. rewrite Hrun.
  repeat split. intros t1 t2. simpl. unfold mainButton. rewrite Hrun.
  destruct (isRunning c); simpl; apply appendLog_last.
Qed.

Lemma failures_keep_indicator_witness :
  mainButton (fst (run runningComponent
                     [MainClick Rejected "10:00:00" "10:00:01";
                      Poll None "10:00:02"; HeadlessToggle]))
  = StopButton.
Proof.
  destruct (failures_keep_indicator
              [MainClick Rejected "10:00:00" "10:00:01";
               Poll None "10:00:02"; HeadlessToggle] runningComponent)
    as (_ & Hbtn & _).
  - reflexivity.
  - exact Hbtn.
Defined.

Lemma step_sent_count c e :
  length (snd (step c e)) = (if isConfigInput e then 0 else 1)%nat
  /\ length (filter (fun call => isGetStatus call = true) (snd (step c e)))
     = (if isPoll e then 1 else 0)%nat.
Proof.
  destruct e as [v|v| | |r t1 t2|resp now]; simpl; try (split; reflexivity).
  unfold mainButton. destruct (isRunning c); split; reflexivity.
Qed.

(** X7: the traffic of a session.  Every click on the main button and
    every poll tick sends exactly one request and configuration input
    sends none, so the number of requests is the number of clicks and
    ticks; exactly one status request goes out per tick, whatever the
    previous answers were (rejections and falsy answers do not stop or
    slow the polling). *)
Theorem requests_match_events :
  forall evs c,
    length (snd (run c evs))
    = length (filter (fun e => isConfigInput e = false) evs)
    /\ length (filter (fun call => isGetStatus call = true) (snd (run c evs)))
       = length (filter (fun e => isPoll e = true) evs).
Proof.
  induction evs as [|e evs IH]; intros c; simpl; [split; reflexivity|].
  destruct (step_sent_count c e) as [Hn Hg].
  destruct (step c e) as [c1 sent1]. simpl in Hn, Hg.
  destruct (IH c1) as [IHn IHg].
  destruct (run c1 evs) as [c2 sent2]. simpl in *.
  rewrite filter_app, !length_app, Hn, Hg, IHn, IHg.
  rewrite !filter_cons.
  destruct e; simpl; split; reflexivity.
Qed.

(** ** The page-count input on numerals *)

Lemma list_ascii_of_string_app s1 s2 :
  list_ascii_of_string (s1 +:+ s2)
  = list_ascii_of_string s1 ++ list_ascii_of_string s2.
Proof. induction s1 as [|a s1 IH]; simpl; [reflexivity | now rewrite IH]. Qed.

Lemma decimal_not_space a :
  JS.isDecimalDigit a = true -> JS.isWhiteSpace a = false.
Proof.
  destruct a as [[|] [|] [|] [|] [|] [|] [|] [|]];
    vm_compute; intros H; first [reflexivity | discriminate H].
Qed.

Lemma decimal_not_sign a r :
  JS.isDecimalDigit a = true -> JS.stripSign (a :: r) = (1, a :: r).
Proof.
  destruct a as [[|] [|] [|] [|] [|] [|] [|] [|]];
    intros H; first [reflexivity | vm_compute in H; discriminate H].
Qed.

Lemma decimal_radixDigit a :
  JS.isDecimalDigit a = true ->
  JS.radixDigit 10 a = Some (Z.of_nat (nat_of_ascii a) - 48).
Proof.
  destruct a as [[|] [|] [|] [|] [|] [|] [|] [|]];
    vm_compute; intros H; first [reflexivity | discriminate H].
Qed.

Lemma decimal_not_x a :
  JS.isDecimalDigit a = true ->
  Ascii.eqb a "x" = false /\ Ascii.eqb a "X" = false.
Proof.
  destruct a as [[|] [|] [|] [|] [|] [|] [|] [|]];
    vm_compute; intros H; first [split; reflexivity | discriminate H].
Qed.

(** Without an [x] in second place there is no hexadecimal prefix. *)
Lemma stripPrefix_decimal a l :
  match l with
  | [] => True
  | b :: _ => Ascii.eqb b "x" = false /\ Ascii.eqb b "X" = false
  end ->
  JS.stripPrefix (a :: l) = (10, a :: l).
Proof.
  intros Hl. destruct (Ascii.eqb a "0") eqn:Ha.
  - apply Ascii.eqb_eq in Ha. subst a.
    destruct l as [|b l']; [reflexivity|]. destruct Hl as [Hx HX].
    destruct b as [[|] [|] [|] [|] [|] [|] [|] [|]];
      first [reflexivity | vm_compute in Hx; discriminate Hx
            | vm_compute in HX; discriminate HX].
  - destruct a as [[|] [|] [|] [|] [|] [|] [|] [|]];
      first [reflexivity | vm_compute in Ha; discriminate Ha].
Qed.

Lemma leadingDigits_decimal cs r :
  Forall (fun a => JS.isDecimalDigit a = true) cs ->
  JS.leadingDigits 10 (cs ++ r)
  = map (fun a => Z.of_nat (nat_of_ascii a) - 48) cs ++ JS.leadingDigits 10 r.
Proof.
  induction 1 as [|a cs Ha Hcs IH]; simpl; [reflexivity|].
  rewrite (decimal_radixDigit a Ha), IH. reflexivity.
Qed.

Lemma pretty_N_char_decimal d :
  (d < 10)%N ->
  JS.isDecimalDigit (pretty_N_char d) = true
  /\ Z.of_nat (nat_of_ascii (pretty_N_char d)) - 48 = Z.of_N d.
Proof.
  intros Hd.
  assert (d = 0 \/ d = 1 \/ d = 2 \/ d = 3 \/ d = 4 \/ d = 5 \/ d = 6
          \/ d = 7 \/ d = 8 \/ d = 9)%N as Hcases by lia.
  repeat (destruct Hcases as [->|Hcases]); try subst d; split; reflexivity.
Qed.

(** The characters [pretty_N_go] puts in front of its accumulator are the
    decimal digits of its argument, most significant first. *)
Lemma pretty_N_go_digits x :
  exists cs,
    (forall s, list_ascii_of_string (pretty_N_go x s)
               = cs ++ list_ascii_of_string s)
    /\ Forall (fun a => JS.isDecimalDigit a = true) cs
    /\ ((0 < x)%N -> cs <> [])
    /\ forall acc,
         fold_left (fun acc d => acc * 10 + d)
           (map (fun a => Z.of_nat (nat_of_ascii a) - 48) cs) acc
         = acc * 10 ^ Z.of_nat (length cs) + Z.of_N x.
Proof.
  induction (N.lt_wf_0 x) as [x _ IH].
  destruct (decide (x = 0)%N) as [->|Hx].
  - exists []. repeat split.
    + constructor.
    + intros H; exfalso; revert H; apply N.lt_irrefl.
    + intros acc. simpl. lia.
  - assert (0 < x)%N as Hpos by lia.
    destruct (IH (x `div` 10)%N) as (cs & Hcs & Hall & _ & Hval).
    { apply N.div_lt; lia. }
    destruct (pretty_N_char_decimal (x `mod` 10)%N) as [Hdig Hdv].
    { apply N.mod_lt. discriminate. }
    exists (cs ++ [pretty_N_char (x `mod` 10)%N]). repeat split.
    + intros s. rewrite pretty_N_go_step by exact Hpos.
      rewrite Hcs, <- app_assoc. reflexivity.
    + apply Forall_app. split; [exact Hall|].
      constructor; [exact Hdig | constructor].
    + intros _ H. apply app_eq_nil in H as [_ H]. discriminate H.
    + intros acc. rewrite map_app, fold_left_app, Hval. simpl.
      rewrite Hdv, length_app. simpl.
      rewrite Nat2Z.inj_add, Z.pow_add_r by lia.
      rewrite N2Z.inj_div, N2Z.inj_mod. change (Z.of_N 10) with 10.
      change (Z.of_nat 1) with 1. rewrite Z.pow_1_r.
      pose proof (Z.div_mod (Z.of_N x) 10 ltac:(lia)). lia.
Qed.

(** The decimal numeral of [n]: at least one character, all of them
    decimal digits, with value [n]. *)
Lemma pretty_N_digits (n : N) :
  exists a cs,
    list_ascii_of_string (pretty n) = a :: cs
    /\ Forall (fun b => JS.isDecimalDigit b = true) (a :: cs)
    /\ JS.mathInt 10 (map (fun b => Z.of_nat (nat_of_ascii b) - 48) (a :: cs))
       = Z.of_N n.
Proof.
  unfold pretty, pretty_N. destruct (decide (n = 0)%N) as [->|Hn].
  - exists "0"%char, []. repeat split. repeat constructor.
  - destruct (pretty_N_go_digits n) as (cs & Hcs & Hall & Hne & Hval).
    specialize (Hcs ""). simpl in Hcs. rewrite app_nil_r in Hcs.
    destruct cs as [|a cs]; [exfalso; apply Hne; [lia | reflexivity]|].
    exists a, cs. split; [exact Hcs|]. split; [exact Hall|].
    unfold JS.mathInt. rewrite Hval. lia.
Qed.

Lemma endsNumeral_chars rest :
  endsNumeral rest = true ->
  JS.leadingDigits 10 (list_ascii_of_string rest) = []
  /\ match list_ascii_of_string rest with
     | [] => True
     | b :: _ => Ascii.eqb b "x" = false /\ Ascii.eqb b "X" = false
     end.
Proof.
  destruct rest as [|b rest]; simpl; [intros _; split; trivial|].
  intros H. apply andb_true_iff in H as [H HX].
  apply andb_true_iff in H as [Hd Hx].
  apply negb_true_iff in Hd, Hx, HX.
  rewrite (radixDigit_not_decimal b Hd). split; [reflexivity | split; assumption].
Qed.

(** Reading a run of decimal digits followed by something that ends the
    numeral. *)
Lemma parse_decimal_chars a cs r :
  Forall (fun b => JS.isDecimalDigit b = true) (a :: cs) ->
  JS.leadingDigits 10 r = [] ->
  match r with
  | [] => True
  | b :: _ => Ascii.eqb b "x" = false /\ Ascii.eqb b "X" = false
  end ->
  JS.trimStart ((a :: cs) ++ r) = (a :: cs) ++ r
  /\ JS.stripSign ((a :: cs) ++ r) = (1, (a :: cs) ++ r)
  /\ JS.stripPrefix ((a :: cs) ++ r) = (10, (a :: cs) ++ r)
  /\ JS.leadingDigits 10 ((a :: cs) ++ r)
     = map (fun b => Z.of_nat (nat_of_ascii b) - 48) (a :: cs).
Proof.
  intros Hall Hr Hx. pose proof Hall as Hall'.
  apply Forall_cons in Hall' as [Ha Hcs].
  split; [simpl; rewrite (decimal_not_space a Ha); reflexivity|].
  split; [apply decimal_not_sign, Ha|].
  split.
  - simpl. apply stripPrefix_decimal.
    destruct cs as [|b cs']; simpl; [exact Hx|].
    apply Forall_cons in Hcs as [Hb _]. apply decimal_not_x, Hb.
  - rewrite (leadingDigits_decimal (a :: cs) r Hall), Hr, app_nil_r.
    reflexivity.
Qed.

Lemma parseInt_chars_decimal sign0 a cs r :
  Forall (fun b => JS.isDecimalDigit b = true) (a :: cs) ->
  JS.leadingDigits 10 r = [] ->
  match r with
  | [] => True
  | b :: _ => Ascii.eqb b "x" = false /\ Ascii.eqb b "X" = false
  end ->
  (let '(R, S2) := JS.stripPrefix ((a :: cs) ++ r) in
   match JS.leadingDigits R S2 with
   | [] => JS.NaN
   | ds => JS.Int (sign0 * JS.mathInt R ds)
   end)
  = JS.Int (sign0 * JS.mathInt 10
                      (map (fun b => Z.of_nat (nat_of_ascii b) - 48) (a :: cs))).
Proof.
  intros Hall Hr Hx.
  destruct (parse_decimal_chars a cs r Hall Hr Hx) as (_ & _ & Hpre & Hds).
  rewrite Hpre. cbv beta iota. rewrite Hds. reflexivity.
Qed.

Lemma pages_onPagesChange value c :
  pages (config (onPagesChange value c)) = JS.parseInt value.
Proof. reflexivity. Qed.

(** X8: what the Pages per Product input stores for a numeral.  When the
    raw value is the decimal numeral of [n], for [n] up to 2^53 (the range
    in which a double holds every integer exactly), possibly followed by
    text that does not continue it (a fraction such as .5, an exponent
    such as e5, any other character but a digit or x), [config.pages]
    becomes exactly [n]: whatever follows the leading digits is dropped
    without notice.  With a leading minus sign and [n] positive it
    becomes [-n].  The other fields of the configuration are kept. *)
Theorem pages_input_reads_leading_numeral :
  forall (n : N) (rest : string) (c : Component),
    (n <= EXACT_INTEGERS)%N ->
    endsNumeral rest = true ->
    pages (config (onPagesChange (pretty n +:+ rest) c)) = JS.Int (Z.of_N n)
    /\ ((0 < n)%N ->
        pages (config (onPagesChange ("-" +:+ (pretty n +:+ rest)) c))
        = JS.Int (- Z.of_N n))
    /\ asins (config (onPagesChange (pretty n +:+ rest) c)) = asins (config c)
    /\ headless (config (onPagesChange (pretty n +:+ rest) c))
       = headless (config c)
    /\ mining (config (onPagesChange (pretty n +:+ rest) c))
       = mining (config c).
Proof.
  intros n rest c _ Hrest.
  destruct (pretty_N_digits n) as (a & cs & Hchars & Hall & Hval).
  destruct (endsNumeral_chars rest Hrest) as [Hr Hx].
  destruct (parse_decimal_chars a cs _ Hall Hr Hx) as (Htrim & Hsign & _ & _).
  split; [|split; [|repeat split]].
  - rewrite pages_onPagesChange. unfold JS.parseInt.
    rewrite list_ascii_of_string_app, Hchars, Htrim, Hsign.
    cbv beta iota.
    rewrite (parseInt_chars_decimal 1 a cs _ Hall Hr Hx), Hval.
    f_equal; lia.
  - intros _. rewrite pages_onPagesChange. unfold JS.parseInt.
    change (list_ascii_of_string ("-" +:+ (pretty n +:+ rest)))
      with ("-"%char :: list_ascii_of_string (pretty n +:+ rest)).
    rewrite list_ascii_of_string_app, Hchars.
    change (JS.trimStart ("-"%char :: (a :: cs) ++ list_ascii_of_string rest))
      with ("-"%char :: (a :: cs) ++ list_ascii_of_string rest).
    change (JS.stripSign ("-"%char :: (a :: cs) ++ list_ascii_of_string rest))
      with (-1, (a :: cs) ++ list_ascii_of_string rest).
    cbv beta iota.
    rewrite (parseInt_chars_decimal (-1) a cs _ Hall Hr Hx), Hval.
    f_equal; lia.
Qed.

Lemma pages_input_reads_leading_numeral_witness :
  pages (config (onPagesChange "3" initial)) = JS.Int 3
  /\ pages (config (onPagesChange "2.5" initial)) = JS.Int 2
  /\ pages (config (onPagesChange "1e5" initial)) = JS.Int 1
  /\ pages (config (onPagesChange "-4" initial)) = JS.Int (-4).
Proof.
  split; [|split; [|split]].
  - destruct (pages_input_reads_leading_numeral 3 "" initial) as [H _];
      [vm_compute; discriminate | reflexivity | exact H].
  - destruct (pages_input_reads_leading_numeral 2 ".5" initial) as [H _];
      [vm_compute; discriminate | reflexivity | exact H].
  - destruct (pages_input_reads_leading_numeral 1 "e5" initial) as [H _];
      [vm_compute; discriminate | reflexivity | exact H].
  - destruct (pages_input_reads_leading_numeral 4 "" initial) as (_ & H & _);
      [vm_compute; discriminate | reflexivity | apply H; reflexivity].
Defined.

(** ** Polling an unchanged status *)

Lemma slice_last_app_long {A} k (l m : list A) :
  (k <= length m)%nat -> JS.slice_last k (l ++ m) = JS.slice_last k m.
Proof.
  intros Hk. unfold JS.slice_last. rewrite length_app.
  replace (length l + length m - k)%nat
    with (length l + (length m - k))%nat by lia.
  apply drop_app_add.
Qed.

Lemma slice_last_map {A B} (f : A -> B) k (l : list A) :
  JS.slice_last k (map f l) = map f (JS.slice_last k l).
Proof.
  unfold JS.slice_last. rewrite length_map. symmetry. apply (fmap_drop f).
Qed.

Lemma polls_logs st ts : forall c,
  status_message st <> "" ->
  status_message st <> "Ready" ->
  (length (logs c) <= 50)%nat ->
  logs (fst (run c (map (fun t => Poll (Some st) t) ts)))
  = JS.slice_last 50 (logs c ++ map (statusEntry st) ts).
Proof.
  induction ts as [|t ts IH]; intros c Hne Hready Hc.
  - simpl. rewrite app_nil_r. symmetry. apply slice_last_short, Hc.
  - cbn [map run step]. rewrite (checkStatus_logged st t c Hne Hready).
    specialize (IH (addLog (status_message st)
                      (if String.eqb (status st) "running"
                       then info else success) t
                      (setIsRunning (String.eqb (status st) "running") c))
                  Hne Hready).
    destruct (run _ (map _ ts)) as [c2 sent2]. simpl in *.
    rewrite IH by apply appendLog_length.
    unfold appendLog, LOG_CAPACITY.
    rewrite slice_last_idem_app, <- app_assoc. reflexivity.
Qed.

(** X9: polling repeats the status message.  A poll does not compare the
    message with what it logged before, so every tick that returns the
    same non-empty message other than 'Ready' appends it again; after 50
    such ticks the log consists of nothing but that message, with the
    time stamps of the last 50 ticks, and whatever it held before,
    warnings of failed requests included, has been pushed out. *)
Theorem repeated_polls_fill_log :
  forall st ts c,
    status_message st <> "" ->
    status_message st <> "Ready" ->
    (length (logs c) <= 50)%nat ->
    (50 <= length ts)%nat ->
    logs (fst (run c (map (fun t => Poll (Some st) t) ts)))
    = map (statusEntry st) (JS.slice_last 50 ts)
    /\ forall e,
         In e (logs (fst (run c (map (fun t => Poll (Some st) t) ts)))) ->
         message e = status_message st /\ type e <> warning.
Proof.
  intros st ts c Hne Hready Hc Hts.
  assert (Hlogs : logs (fst (run c (map (fun t => Poll (Some st) t) ts)))
                  = map (statusEntry st) (JS.slice_last 50 ts)).
  { rewrite polls_logs by assumption.
    rewrite slice_last_app_long by (rewrite length_map; exact Hts).
    apply slice_last_map. }
  split; [exact Hlogs|].
  intros e He. rewrite Hlogs in He. apply in_map_iff in He as (t & <- & _).
  split; [reflexivity|]. simpl.
  destruct (String.eqb (status st) "running"); discriminate.
Qed.

Lemma repeated_polls_fill_log_witness :
  logs (fst (run fullComponent
               (map (fun t => Poll (Some scrapingStatus) t)
                  (replicate 50 "10:01:00"))))
  = replicate 50 (statusEntry scrapingStatus "10:01:00").
Proof.
  destruct (repeated_polls_fill_log scrapingStatus
              (replicate 50 "10:01:00") fullComponent) as [Hlogs _].
  - discriminate.
  - discriminate.
  - simpl. lia.
  - simpl. lia.
  - rewrite Hlogs. reflexivity.
Defined.

(** ** The ASIN text area *)

Lemma step_asins c e :
  isAsinsInput e = false ->
  asins (config (fst (step c e))) = asins (config c).
Proof.
  destruct e as [v|v| | |r t1 t2|resp now]; simpl; intros H;
    try reflexivity; try discriminate H.
  - unfold mainButton. destruct (isRunning c), r; reflexivity.
  - unfold checkStatus. destruct resp as [st|]; [|reflexivity].
    destruct (_ && _); reflexivity.
Qed.

Lemma run_asins evs : forall c,
  forallb (fun e => negb (isAsinsInput e)) evs = true ->
  asins (config (fst (run c evs))) = asins (config c)
  /\ forall body,
       In (StartPipeline body) (snd (run c evs)) ->
       asins body = asins (config c).
Proof.
  induction evs as [|e evs IH]; intros c Hevs; simpl.
  - split; [reflexivity | intros body []].
  - simpl in Hevs. apply andb_true_iff in Hevs as [He Hevs].
    apply negb_true_iff in He.
    pose proof (step_asins c e He) as Ha.
    pose proof (step_sent_config c e) as Hs.
    destruct (step c e) as [c1 sent1]. simpl in Ha, Hs.
    destruct (IH c1 Hevs) as [IH1 IH2].
    destruct (run c1 evs) as [c2 sent2]. simpl in *.
    split; [congruence|].
    intros body Hin. apply in_app_or in Hin as [Hin|Hin].
    + rewrite (Hs body Hin). reflexivity.
    + rewrite (IH2 body Hin). exact Ha.
Qed.

(** X10: the text of the ASIN area goes to the backend as typed.  After
    the text area is set to [value], every start request sent before the
    next edit of that field carries [asins = value] character for
    character: the component neither splits, trims nor validates it, and
    an empty text is submitted like any other. *)
Theorem asins_submitted_verbatim :
  forall value evs c,
    forallb (fun e => negb (isAsinsInput e)) evs = true ->
    asins (config (fst (run c (AsinsInput value :: evs)))) = value
    /\ forall body,
         In (StartPipeline body) (snd (run c (AsinsInput value :: evs))) ->
         asins body = value.
Proof.
  intros value evs c Hevs.
  destruct (run_asins evs (onAsinsChange value c) Hevs) as [Hcfg Hsent].
  simpl. destruct (run (onAsinsChange value c) evs) as [c2 sent2].
  simpl in *. split; [exact Hcfg | exact Hsent].
Qed.

Lemma asins_submitted_verbatim_witness :
  snd (run initial [AsinsInput ""; MainClick Resolved "10:00:00" "10:00:01"])
  = [StartPipeline {| asins := ""; pages := JS.Int 2;
                      headless := true; mining := true |}]
  /\ forall body,
       In (StartPipeline body)
          (snd (run initial
                  [AsinsInput ""; MainClick Resolved "10:00:00" "10:00:01"])) ->
       asins body = "".
Proof.
  split; [reflexivity|].
  destruct (asins_submitted_verbatim ""
              [MainClick Resolved "10:00:00" "10:00:01"] initial) as [_ H].
  - reflexivity.
  - exact H.
Defined.

(** ** A start click and what happens while its request is pending *)





